(** * Study Buddy tutor: the six tool functions of [agent.py]

    A shallow embedding of the tool functions that [agent.py] registers with
    the tutoring agent, and the properties its specification states about
    them.

    Python values are embedded as follows.
    - [str] is [string], [int] is [Z], [bool] is [bool].
    - [float] is the kernel's binary64 [float], so that the comparison the
      understanding checker performs is the IEEE 754 one, NaN included.
    - a [dict] with string keys is a [gmap string pyval]: Python compares
      dicts by their key/value pairs, not by insertion order.
    - a [list] is a [list].
    - an argument with a default value is an [option]: [None] is the call
      that omits it.
    - [key_concepts] is a [list string], the concept names its docstring
      describes ("key concepts from research"); the planner is also given
      on a bare list, whose entries may be ints, with the one failure that
      formatting an entry can raise. *)

From Stdlib Require Import ZArith Floats DecimalString Sorted.
From stdpp Require Import gmap strings list fin_maps.

#[local] Set Warnings "-register-all,-inexact-float".
#[local] Open Scope Z_scope.

(** ** Python values *)

Module Py.

Inductive pyval : Type :=
  | PNone
  | PBool (b : bool)
  | PInt (z : Z)
  | PFloat (f : float)
  | PStr (s : string)
  | PList (l : list pyval)
  | PDict (d : gmap string pyval).

(** [str(z)] for an [int], which is what an f-string field [{z}] prints. *)
Definition str_of_int (z : Z) : string := NilZero.string_of_int (Z.to_int z).

(** [x >= y] on two floats: IEEE 754 [y <= x], false when either is NaN. *)
Definition float_ge (x y : float) : bool := PrimFloat.leb y x.

(** [x > y] and [x <= y] on two floats, the comparisons the specification
    makes between a threshold and the score. *)
Definition float_gt (x y : float) : bool := PrimFloat.ltb y x.
Definition float_le (x y : float) : bool := PrimFloat.leb x y.

(** [x == y] on two floats: IEEE 754 equality ([0.0 == -0.0], NaN differs
    from itself). *)
Definition float_eq (x y : float) : bool := PrimFloat.eqb x y.

(** [enumerate(l, start)]. *)
Fixpoint enumerate {A : Type} (l : list A) (start : Z) : list (Z * A) :=
  match l with
  | [] => []
  | x :: l' => (start, x) :: enumerate l' (start + 1)
  end.

(** [len(l)]. *)
Definition len {A : Type} (l : list A) : Z := Z.of_nat (length l).

End Py.

Export Py.

Abbreviation pydict := (gmap string pyval).

(** ** The tools *)

(** [get_student_info(grade_level, subject, exam_date, current_knowledge)] *)
Definition get_student_info
    (grade_level subject exam_date current_knowledge : string) : pydict :=
  {[ "student_profile" := PDict
       {[ "grade_level" := PStr grade_level;
          "subject" := PStr subject;
          "exam_date" := PStr exam_date;
          "current_knowledge" := PStr current_knowledge;
          "profile_complete" := PBool true ]};
     "next_step" := PStr "research_subject" ]}.

(** [research_subject(subject, grade_level)] *)
Definition research_subject (subject grade_level : string) : pydict :=
  {[ "subject_overview" :=
       PStr ("Research completed for " +:+ subject +:+ " at "
             +:+ grade_level +:+ " level");
     "key_concepts" := PList
       [ PStr "Fundamental principles";
         PStr "Core theories and applications";
         PStr "Problem-solving techniques";
         PStr "Common exam topics" ];
     "difficulty_areas" := PList
       [ PStr "Abstract concepts";
         PStr "Mathematical applications";
         PStr "Memorization requirements" ];
     "next_step" := PStr "create_study_sections" ]}.

(** The dict appended to [sections] by one iteration of the loop of
    [create_study_sections], at index [i] and concept [concept]. *)
Definition section_dict (i : Z) (concept : string) : pydict :=
  {[ "section_number" := PInt i;
     "title" := PStr concept;
     "estimated_time" := PStr "3-5 study sessions";
     "prerequisites" :=
       PStr (if i >? 1
             then "Understanding of previous " +:+ str_of_int (i - 1)
                  +:+ " sections"
             else "Basic foundational knowledge");
     "learning_objectives" := PList
       [ PStr ("Master " +:+ concept);
         PStr ("Apply " +:+ concept +:+ " to problems");
         PStr ("Explain " +:+ concept +:+ " clearly") ];
     "status" := PStr "not_started" ]}.

(** The loop [for i, concept in enumerate(key_concepts, 1):
    sections.append({...})], started from [sections = []]. *)
Definition study_sections_loop (key_concepts : list string) : list pyval :=
  foldl (fun sections '(i, concept) =>
           sections ++ [PDict (section_dict i concept)])
        [] (enumerate key_concepts 1).

(** What the loop amounts to, one [section_dict] per enumerated concept;
    [study_sections_loop_planned] below proves the loop computes it. *)
Definition planned_sections (key_concepts : list string) : list pydict :=
  (λ p, section_dict p.1 p.2) <$> enumerate key_concepts 1.

(** [create_study_sections(subject, key_concepts, exam_date)] *)
Definition create_study_sections
    (subject : string) (key_concepts : list string) (exam_date : string)
    : pydict :=
  let sections := study_sections_loop key_concepts in
  {[ "study_sections" := PList sections;
     "total_sections" := PInt (len sections);
     "current_section" := PInt 1;
     "next_step" := PStr "teach_section" ]}.

(** [teach_section(section_number, section_title, student_grade)] *)
Definition teach_section
    (section_number : Z) (section_title student_grade : string) : pydict :=
  {[ "section_taught" := PDict
       {[ "number" := PInt section_number;
          "title" := PStr section_title;
          "explanations_provided" := PBool true;
          "examples_given" := PBool true;
          "grade_appropriate" := PStr student_grade ]};
     "teaching_summary" :=
       PStr ("Completed teaching " +:+ section_title
             +:+ " with explanations and examples suitable for "
             +:+ student_grade);
     "next_step" := PStr "quiz_section" ]}.

(** [quiz_section(section_number, section_title, difficulty_level="medium")] *)
Definition quiz_section
    (section_number : Z) (section_title : string)
    (difficulty_level : option string) : pydict :=
  let difficulty_level := default "medium" difficulty_level in
  {[ "quiz_administered" := PDict
       {[ "section" := PInt section_number;
          "title" := PStr section_title;
          "difficulty" := PStr difficulty_level;
          "questions_asked" := PInt 5;
          "answers_received" := PBool true ]};
     "next_step" := PStr "check_understanding" ]}.

(** [check_understanding(quiz_results, passing_threshold=0.8)] *)
Definition check_understanding
    (quiz_results : pydict) (passing_threshold : option float) : pydict :=
  let passing_threshold := default 0.8%float passing_threshold in
  let understanding_level := 0.75%float in
  if float_ge understanding_level passing_threshold then
    {[ "understanding_sufficient" := PBool true;
       "score" := PFloat understanding_level;
       "next_action" := PStr "proceed_to_next_section";
       "message" := PStr
         "Great job! You've mastered this section. Let's move to the next one." ]}
  else
    {[ "understanding_sufficient" := PBool false;
       "score" := PFloat understanding_level;
       "next_action" := PStr "review_and_reteach";
       "weak_concepts" := PList [PStr "Concept A"; PStr "Concept B"];
       "message" := PStr
         "Let's review some concepts you're still working on, then try the quiz again." ]}.

(** The [tools=[...]] argument of [root_agent]: the registered functions,
    by name and in registration order. The runtime offers a tool to the
    model under the name of its function. *)
Definition root_agent_tools : list string :=
  [ "get_student_info";
    "research_subject";
    "create_study_sections";
    "teach_section";
    "quiz_section";
    "check_understanding" ].

(** ** The planner on a bare list

    [key_concepts] is annotated with the bare [list], so its entries need
    not be strings. The planner stores each entry as the section's [title]
    and formats it into three f-strings; formatting is the one operation of
    the tools that can raise. The entries modelled here are strings and
    ints; other kinds of entry are left out. *)

Inductive exn : Type := ValueError.

Inductive outcome (A : Type) : Type :=
  | Returns (a : A)
  | Raises (e : exn).

Arguments Returns {A} a.
Arguments Raises {A} e.


#[global] Instance outcome_bind : MBind outcome := λ A B f m,
  match m with
  | Returns a => f a
  | Raises e => Raises e
  end.

(** CPython's default limit on the number of digits of an int converted to
    a string, [sys.int_info.default_max_str_digits]. *)
Definition int_max_str_digits : Z := 4300.

(** [str(z)] under that limit: [ValueError] when [z] has more than
    [int_max_str_digits] digits, the sign not counted. *)
Definition str_int (z : Z) : outcome string :=
  if 10 ^ int_max_str_digits <=? Z.abs z then Raises ValueError
  else Returns (str_of_int z).

(** An entry of [key_concepts]. *)
Inductive entry : Type :=
  | EStr (s : string)
  | EInt (z : Z).


(** An f-string field [{e}]: a string is copied, an int is printed. *)
Definition format_field (e : entry) : outcome string :=
  match e with
  | EStr s => Returns s
  | EInt z => str_int z
  end.





(** ** Order of binary64 floats *)

Section FloatOrder.

Lemma compare_cont_swap (m1 m2 : positive) :
  Pos.compare_cont Eq m2 m1 = CompOpp (Pos.compare_cont Eq m1 m2).
Proof. by rewrite (Pos.compare_cont_antisym m1 m2 Eq). Qed.

Lemma SFcompare_swap (x y : spec_float) :
  SFcompare y x = CompOpp <$> SFcompare x y.
Proof.
  destruct x as [sx|sx| |sx mx ex], y as [sy|sy| |sy my ey]; simpl;
    repeat match goal with s : bool |- _ => destruct s end;
    try reflexivity.
  all: rewrite (Z.compare_antisym ex ey), (compare_cont_swap mx my).
  all: destruct (ex ?= ey)%Z; simpl; try reflexivity.
  all: by destruct (Pos.compare_cont Eq mx my).
Qed.

Lemma SFcompare_refl (x : spec_float) :
  SFcompare x x = if x is S754_nan then None else Some Eq.
Proof.
  destruct x as [s|s| |s m e]; simpl; [by destruct s..|done|].
  pose proof (Pos.compare_refl m) as Hm.
  unfold Pos.compare in Hm. rewrite Z.compare_refl, Hm. by destruct s.
Qed.

Lemma SFcompare_Eq_l (x y z : spec_float) :
  SFcompare x y = Some Eq → SFcompare x z = SFcompare y z.
Proof.
  destruct x as [sx|sx| |sx mx ex], y as [sy|sy| |sy my ey]; simpl;
    repeat match goal with s : bool |- _ => destruct s end;
    try discriminate; try reflexivity; intros H.
  all: try (by destruct z as [[]|[]| |[] ? ?]).
  all: injection H as H.
  all: destruct (ex ?= ey)%Z eqn:He; try discriminate.
  all: apply Z.compare_eq in He as ->.
  all: destruct (Pos.compare_cont Eq mx my) eqn:Hm; try discriminate.
  all: by apply Pos.compare_eq in Hm as ->.
Qed.

(** The three ways a threshold [t] can compare with a float [c] that is not
    NaN: [t <= c], [t > c], or [t] is NaN; exactly one of them holds. *)
Lemma float_le_gt_nan (t c : float) :
  is_nan c = false →
  float_le t c = negb (float_gt t c || is_nan t).
Proof.
  unfold float_le, float_gt, is_nan.
  rewrite FloatAxioms.leb_spec, FloatAxioms.ltb_spec, !FloatAxioms.eqb_spec.
  unfold SFleb, SFltb, SFeqb.
  rewrite (SFcompare_swap (Prim2SF t) (Prim2SF c)), !SFcompare_refl.
  destruct (Prim2SF c) as [sc|sc| |sc mc ec] eqn:Hc; try discriminate;
    intros _; destruct (Prim2SF t) as [st|st| |st mt et]; simpl;
    repeat match goal with s : bool |- _ => destruct s end; try reflexivity.
  all: by destruct (et ?= ec)%Z, (Pos.compare_cont Eq mt mc).
Qed.

(** IEEE equality of two thresholds makes them compare alike with any [c]. *)
Lemma float_ge_proper (c t t' : float) :
  float_eq t t' = true → float_ge c t = float_ge c t'.
Proof.
  unfold float_eq, float_ge. rewrite FloatAxioms.eqb_spec, !FloatAxioms.leb_spec.
  unfold SFeqb, SFleb. intros H.
  destruct (SFcompare (Prim2SF t) (Prim2SF t')) as [[]|] eqn:Heq;
    try discriminate.
  by rewrite (SFcompare_Eq_l _ _ (Prim2SF c) Heq).
Qed.

End FloatOrder.

(** ** The understanding checker *)

Section CheckUnderstanding.

Implicit Types (quiz_results : pydict) (t : float).

(** The hardcoded comprehension score is an ordinary number. *)
Lemma understanding_level_not_nan : is_nan 0.75 = false.
Proof. reflexivity. Qed.

Lemma check_understanding_then quiz_results t :
  float_le t 0.75 = true →
  check_understanding quiz_results (Some t) =
    {[ "understanding_sufficient" := PBool true;
       "score" := PFloat 0.75;
       "next_action" := PStr "proceed_to_next_section";
       "message" := PStr
         "Great job! You've mastered this section. Let's move to the next one." ]}.
Proof.
  unfold check_understanding, float_le, float_ge. simpl. by intros ->.
Qed.

Lemma check_understanding_else quiz_results t :
  float_le t 0.75 = false →
  check_understanding quiz_results (Some t) =
    {[ "understanding_sufficient" := PBool false;
       "score" := PFloat 0.75;
       "next_action" := PStr "review_and_reteach";
       "weak_concepts" := PList [PStr "Concept A"; PStr "Concept B"];
       "message" := PStr
         "Let's review some concepts you're still working on, then try the quiz again." ]}.
Proof.
  unfold check_understanding, float_le, float_ge. simpl. by intros ->.
Qed.

Lemma check_understanding_sufficient quiz_results t :
  check_understanding quiz_results (Some t) !! "understanding_sufficient"
  = Some (PBool (float_le t 0.75)).
Proof.
  destruct (float_le t 0.75) eqn:Hle.
  - by rewrite check_understanding_then.
  - by rewrite check_understanding_else.
Qed.

Lemma float_gt_not_le t : float_gt t 0.75 = true → float_le t 0.75 = false.
Proof.
  intros Hgt.
  rewrite (float_le_gt_nan t 0.75 understanding_level_not_nan).
  by rewrite Hgt.
Qed.

(** C1, as amended. For every [quiz_results] and every threshold,
    [understanding_sufficient] is true exactly when
    [passing_threshold <= 0.75], and false exactly when
    [passing_threshold > 0.75] or the threshold is NaN (a float that
    compares false both ways); the result does not depend on
    [quiz_results]. *)
Theorem check_understanding_threshold quiz_results t :
  (check_understanding quiz_results (Some t) !! "understanding_sufficient"
     = Some (PBool true) ↔ float_le t 0.75 = true) ∧
  (check_understanding quiz_results (Some t) !! "understanding_sufficient"
     = Some (PBool false) ↔ float_gt t 0.75 = true ∨ is_nan t = true) ∧
  (∀ quiz_results',
     check_understanding quiz_results' (Some t)
     = check_understanding quiz_results (Some t)).
Proof.
  rewrite check_understanding_sufficient.
  rewrite (float_le_gt_nan t 0.75 understanding_level_not_nan).
  split_and!.
  - split; [by intros [= ->]|by intros ->].
  - rewrite <-orb_true_iff.
    destruct (float_gt t 0.75 || is_nan t); simpl; split; congruence.
  - reflexivity.
Qed.

(** C1, as stated, fails at a NaN threshold: the checker answers
    [understanding_sufficient = False] although [nan > 0.75] is false (and
    so is [nan <= 0.75]), so "false exactly when [passing_threshold > 0.75]"
    does not hold there. *)
Lemma check_understanding_nan_threshold :
  check_understanding ∅ (Some nan) !! "understanding_sufficient"
    = Some (PBool false) ∧
  float_gt nan 0.75 = false ∧
  float_le nan 0.75 = false ∧
  ¬ (check_understanding ∅ (Some nan) !! "understanding_sufficient"
       = Some (PBool false) ↔ float_gt nan 0.75 = true).
Proof.
  split_and!; try reflexivity.
  intros [Hgt _]. by specialize (Hgt eq_refl).
Qed.

(** C6. When [passing_threshold > 0.75], whatever [quiz_results] is, the
    checker returns [understanding_sufficient = False],
    [next_action = "review_and_reteach"], [score = 0.75] and
    [weak_concepts = ["Concept A", "Concept B"]]. *)
Theorem check_understanding_reteach quiz_results t :
  float_gt t 0.75 = true →
  check_understanding quiz_results (Some t) !! "understanding_sufficient"
    = Some (PBool false) ∧
  check_understanding quiz_results (Some t) !! "next_action"
    = Some (PStr "review_and_reteach") ∧
  check_understanding quiz_results (Some t) !! "score"
    = Some (PFloat 0.75) ∧
  check_understanding quiz_results (Some t) !! "weak_concepts"
    = Some (PList [PStr "Concept A"; PStr "Concept B"]).
Proof.
  intros Hgt%float_gt_not_le.
  rewrite check_understanding_else by done.
  split_and!; reflexivity.
Qed.

(** The example of C6: [check_understanding({}, 0.9)]. *)
Lemma check_understanding_reteach_witness :
  float_gt 0.9 0.75 = true ∧
  (check_understanding ∅ (Some 0.9%float) !! "understanding_sufficient"
     = Some (PBool false) ∧
   check_understanding ∅ (Some 0.9%float) !! "next_action"
     = Some (PStr "review_and_reteach") ∧
   check_understanding ∅ (Some 0.9%float) !! "score"
     = Some (PFloat 0.75) ∧
   check_understanding ∅ (Some 0.9%float) !! "weak_concepts"
     = Some (PList [PStr "Concept A"; PStr "Concept B"])).
Proof.
  split; [reflexivity|].
  apply (check_understanding_reteach ∅ 0.9%float). reflexivity.
Defined.

(** C10. When [passing_threshold <= 0.75] the result has exactly the keys
    [understanding_sufficient], [score], [next_action] and [message]:
    there is no [weak_concepts] key, [understanding_sufficient] is true,
    [score] is 0.75, [next_action] is ["proceed_to_next_section"], and
    [message] is a string. *)
Theorem check_understanding_proceed quiz_results t :
  float_le t 0.75 = true →
  check_understanding quiz_results (Some t) !! "weak_concepts" = None ∧
  dom (check_understanding quiz_results (Some t))
    = {[ "understanding_sufficient"; "score"; "next_action"; "message" ]} ∧
  check_understanding quiz_results (Some t) !! "understanding_sufficient"
    = Some (PBool true) ∧
  check_understanding quiz_results (Some t) !! "score"
    = Some (PFloat 0.75) ∧
  check_understanding quiz_results (Some t) !! "next_action"
    = Some (PStr "proceed_to_next_section") ∧
  (∃ message : string,
     check_understanding quiz_results (Some t) !! "message"
     = Some (PStr message)).
Proof.
  intros Hle. rewrite check_understanding_then by done.
  split_and!; [reflexivity| |reflexivity..|by eexists].
  rewrite !dom_insert_L, dom_singleton_L. set_solver.
Qed.

(** C10 at the threshold 0.75 itself, the largest one that passes. *)
Lemma check_understanding_proceed_witness :
  float_le 0.75 0.75 = true ∧
  (check_understanding ∅ (Some 0.75%float) !! "weak_concepts" = None ∧
   dom (check_understanding ∅ (Some 0.75%float))
     = {[ "understanding_sufficient"; "score"; "next_action"; "message" ]} ∧
   check_understanding ∅ (Some 0.75%float) !! "understanding_sufficient"
     = Some (PBool true) ∧
   check_understanding ∅ (Some 0.75%float) !! "score"
     = Some (PFloat 0.75) ∧
   check_understanding ∅ (Some 0.75%float) !! "next_action"
     = Some (PStr "proceed_to_next_section") ∧
   (∃ message : string,
      check_understanding ∅ (Some 0.75%float) !! "message"
      = Some (PStr message))).
Proof.
  split; [reflexivity|].
  apply (check_understanding_proceed ∅ 0.75%float). reflexivity.
Defined.

End CheckUnderstanding.

(** ** The section planner *)

Section CreateStudySections.

Implicit Types (subject exam_date concept : string)
  (key_concepts : list string).

Lemma length_enumerate {A} (l : list A) (start : Z) :
  length (enumerate l start) = length l.
Proof. revert start. induction l as [|x l IH]; intros; simpl; by f_equal. Qed.

Lemma len_cons {A} (x : A) (l : list A) : len (x :: l) = Z.succ (len l).
Proof. unfold len. simpl length. lia. Qed.

Lemma len_nonneg {A} (l : list A) : 0 ≤ len l.
Proof. unfold len. lia. Qed.

(** The indices [enumerate] hands out are [start], [start + 1], ... *)
Lemma fst_enumerate {A} (l : list A) (start : Z) :
  (enumerate l start).*1 = seqZ start (len l).
Proof.
  revert start. induction l as [|x l IH]; intros start.
  - by rewrite seqZ_nil.
  - pose proof (len_nonneg l). simpl. rewrite len_cons, seqZ_cons by lia.
    rewrite IH, Z.pred_succ. by rewrite Z.add_1_r.
Qed.

Lemma StronglySorted_seqZ (m n : Z) : StronglySorted Z.lt (seqZ m n).
Proof.
  destruct (decide (n ≤ 0)) as [|Hn]; [rewrite seqZ_nil by done; constructor|].
  rewrite <-(Z2Nat.id n) by lia. generalize (Z.to_nat n) as k. clear.
  intros k. revert m. induction k as [|k IH]; intros m.
  - rewrite seqZ_nil by done. constructor.
  - rewrite seqZ_cons, Nat2Z.inj_succ, Z.pred_succ by lia.
    constructor; [apply IH|]. apply Forall_seqZ. lia.
Qed.

Lemma append_loop (l : list (Z * string)) (acc : list pyval) :
  foldl (fun sections '(i, concept) =>
           sections ++ [PDict (section_dict i concept)]) acc l
  = acc ++ (PDict <$> ((λ p, section_dict p.1 p.2) <$> l)).
Proof.
  revert acc. induction l as [|[i concept] l IH]; intros acc; simpl.
  - by rewrite app_nil_r.
  - by rewrite IH, <-app_assoc.
Qed.

Lemma study_sections_loop_planned key_concepts :
  study_sections_loop key_concepts = PDict <$> planned_sections key_concepts.
Proof. unfold study_sections_loop. by rewrite append_loop. Qed.

Lemma length_planned_sections key_concepts :
  length (planned_sections key_concepts) = length key_concepts.
Proof. unfold planned_sections. by rewrite length_fmap, length_enumerate. Qed.

Lemma create_study_sections_planned subject key_concepts exam_date :
  create_study_sections subject key_concepts exam_date =
    {[ "study_sections" := PList (PDict <$> planned_sections key_concepts);
       "total_sections" := PInt (len key_concepts);
       "current_section" := PInt 1;
       "next_step" := PStr "teach_section" ]}.
Proof.
  unfold create_study_sections. rewrite study_sections_loop_planned.
  unfold len. by rewrite length_fmap, length_planned_sections.
Qed.

Lemma section_numbers_planned key_concepts :
  (λ s : pydict, s !! "section_number") <$> planned_sections key_concepts
  = (λ i, Some (PInt i)) <$> seqZ 1 (len key_concepts).
Proof.
  unfold planned_sections.
  rewrite <-fst_enumerate, <-!list_fmap_compose.
  by apply list_fmap_ext.
Qed.

(** C2. For every [key_concepts] (and any [subject] and [exam_date]),
    [study_sections] has as many sections as there are concepts, their
    [section_number] fields are 1, 2, ..., n in this order (strictly
    increasing from 1, section i carrying number i), [total_sections] is
    that length and [current_section] is 1. *)
Theorem create_study_sections_numbering subject key_concepts exam_date :
  ∃ sections : list pydict,
    create_study_sections subject key_concepts exam_date !! "study_sections"
      = Some (PList (PDict <$> sections)) ∧
    length sections = length key_concepts ∧
    (λ s : pydict, s !! "section_number") <$> sections
      = (λ i, Some (PInt i)) <$> seqZ 1 (len key_concepts) ∧
    (∀ k : nat, (k < length key_concepts)%nat →
       ∃ s : pydict, sections !! k = Some s ∧
         s !! "section_number" = Some (PInt (Z.of_nat k + 1))) ∧
    StronglySorted Z.lt (seqZ 1 (len key_concepts)) ∧
    create_study_sections subject key_concepts exam_date !! "total_sections"
      = Some (PInt (len key_concepts)) ∧
    create_study_sections subject key_concepts exam_date !! "current_section"
      = Some (PInt 1).
Proof.
  exists (planned_sections key_concepts).
  rewrite create_study_sections_planned.
  split_and!; try reflexivity.
  - apply length_planned_sections.
  - apply section_numbers_planned.
  - intros k Hk.
    pose proof (section_numbers_planned key_concepts) as Hnum.
    apply (f_equal (.!! k)) in Hnum. rewrite !list_lookup_fmap in Hnum.
    rewrite lookup_seqZ_lt in Hnum by (unfold len; lia).
    destruct (planned_sections key_concepts !! k) as [s|]; [|done].
    exists s. split; [done|]. simpl in Hnum.
    injection Hnum as ->. f_equal. f_equal. lia.
  - apply StronglySorted_seqZ.
Qed.

(** Past the first index every section names the count of sections before
    it. *)
Lemma prerequisites_later (l : list string) (start : Z) :
  1 < start →
  (λ p : Z * string, section_dict p.1 p.2 !! "prerequisites")
    <$> enumerate l start
  = (λ i, Some (PStr ("Understanding of previous " +:+ str_of_int (i - 1)
                      +:+ " sections")))
    <$> seqZ start (len l).
Proof.
  revert start. induction l as [|concept l IH]; intros start Hstart.
  - by rewrite seqZ_nil.
  - pose proof (len_nonneg l).
    rewrite len_cons, seqZ_cons, Z.pred_succ by lia. simpl.
    rewrite IH, Z.add_1_r by lia. f_equal.
    unfold section_dict. simplify_map_eq.
    by destruct (Z.gtb_spec start 1); [|lia].
Qed.

(** C3. The first section's [prerequisites] is
    ["Basic foundational knowledge"] and section i, for every i > 1, has
    ["Understanding of previous {i-1} sections"]; the Biology example of
    the specification yields two sections with the prerequisites
    ["Basic foundational knowledge"] and
    ["Understanding of previous 1 sections"]. *)
Theorem create_study_sections_prerequisites subject key_concepts exam_date :
  (∃ sections : list pydict,
     create_study_sections subject key_concepts exam_date !! "study_sections"
       = Some (PList (PDict <$> sections)) ∧
     (λ s : pydict, s !! "prerequisites") <$> sections
       = match key_concepts with
         | [] => []
         | _ :: later =>
             Some (PStr "Basic foundational knowledge")
             :: ((λ i, Some (PStr ("Understanding of previous "
                                   +:+ str_of_int (i - 1) +:+ " sections")))
                 <$> seqZ 2 (len later))
         end) ∧
  (∃ first second : pydict,
     create_study_sections "Biology" ["Cells"; "Genetics"] "2024-06-01"
       !! "study_sections" = Some (PList [PDict first; PDict second]) ∧
     first !! "prerequisites" = Some (PStr "Basic foundational knowledge") ∧
     second !! "prerequisites"
       = Some (PStr "Understanding of previous 1 sections")).
Proof.
  split.
  - exists (planned_sections key_concepts).
    rewrite create_study_sections_planned. split; [reflexivity|].
    unfold planned_sections. rewrite <-list_fmap_compose.
    destruct key_concepts as [|concept later]; [reflexivity|].
    simpl. f_equal. by apply (prerequisites_later later 2).
  - exists (section_dict 1 "Cells"), (section_dict 2 "Genetics").
    split_and!; reflexivity.
Qed.

End CreateStudySections.

(** ** The echoing tools *)

Section EchoingTools.

(** C5. For all four arguments, the profile returned by
    [get_student_info] carries them unchanged in [grade_level], [subject],
    [exam_date] and [current_knowledge], [profile_complete] is true and
    [next_step] is ["research_subject"]. *)
Theorem get_student_info_echo
    (grade_level subject exam_date current_knowledge : string) :
  ∃ student_profile : pydict,
    get_student_info grade_level subject exam_date current_knowledge
      !! "student_profile" = Some (PDict student_profile) ∧
    student_profile !! "grade_level" = Some (PStr grade_level) ∧
    student_profile !! "subject" = Some (PStr subject) ∧
    student_profile !! "exam_date" = Some (PStr exam_date) ∧
    student_profile !! "current_knowledge" = Some (PStr current_knowledge) ∧
    student_profile !! "profile_complete" = Some (PBool true) ∧
    get_student_info grade_level subject exam_date current_knowledge
      !! "next_step" = Some (PStr "research_subject").
Proof. eexists. split_and!; reflexivity. Qed.

(** C4. Whatever [subject] and [grade_level] are, [research_subject]
    returns the same four [key_concepts] and the same three
    [difficulty_areas]. *)
Theorem research_subject_constant (subject grade_level : string) :
  ∃ key_concepts difficulty_areas : list pyval,
    research_subject subject grade_level !! "key_concepts"
      = Some (PList key_concepts) ∧
    research_subject subject grade_level !! "difficulty_areas"
      = Some (PList difficulty_areas) ∧
    length key_concepts = 4%nat ∧
    length difficulty_areas = 3%nat ∧
    (∀ subject' grade_level' : string,
       research_subject subject' grade_level' !! "key_concepts"
         = Some (PList key_concepts) ∧
       research_subject subject' grade_level' !! "difficulty_areas"
         = Some (PList difficulty_areas)).
Proof. do 2 eexists. split_and!; try reflexivity. by intros. Qed.

(** C7. [quiz_section] echoes the section number and title in
    [quiz_administered], with [questions_asked = 5] and
    [answers_received = True] whatever the arguments are, and its
    [difficulty] is the given [difficulty_level], ["medium"] when the
    argument is omitted. *)
Theorem quiz_section_echo
    (section_number : Z) (section_title difficulty_level : string) :
  (∃ quiz_administered : pydict,
     quiz_section section_number section_title (Some difficulty_level)
       !! "quiz_administered" = Some (PDict quiz_administered) ∧
     quiz_administered !! "section" = Some (PInt section_number) ∧
     quiz_administered !! "title" = Some (PStr section_title) ∧
     quiz_administered !! "difficulty" = Some (PStr difficulty_level) ∧
     quiz_administered !! "questions_asked" = Some (PInt 5) ∧
     quiz_administered !! "answers_received" = Some (PBool true)) ∧
  (∃ quiz_administered : pydict,
     quiz_section section_number section_title None
       !! "quiz_administered" = Some (PDict quiz_administered) ∧
     quiz_administered !! "section" = Some (PInt section_number) ∧
     quiz_administered !! "title" = Some (PStr section_title) ∧
     quiz_administered !! "difficulty" = Some (PStr "medium") ∧
     quiz_administered !! "questions_asked" = Some (PInt 5) ∧
     quiz_administered !! "answers_received" = Some (PBool true)).
Proof. split; eexists; split_and!; reflexivity. Qed.

End EchoingTools.

(** ** Which inputs make a tool raise *)

Section Failures.

Implicit Types (subject exam_date : string) (key_concepts : list entry)
  (concepts : list string).


Lemma format_field_cases (e : entry) :
  (∃ text : string, format_field e = Returns text)
  ∨ format_field e = Raises ValueError.
Proof.
  destruct e as [s|z]; simpl; [by eauto|].
  unfold str_int. destruct (_ <=? _); eauto.
Qed.













End Failures.

(** ** More on the section planner *)

Section PlannerStructure.

Implicit Types (subject exam_date concept : string)
  (key_concepts : list string).

#[local] Instance PDict_inj : Inj (=) (=) PDict.
Proof. by intros d1 d2 [= ->]. Qed.

#[local] Instance PStr_inj : Inj (=) (=) PStr.
Proof. by intros s1 s2 [= ->]. Qed.

Lemma snd_enumerate {A} (l : list A) (start : Z) : (enumerate l start).*2 = l.
Proof. revert start. induction l as [|x l IH]; intros; simpl; by f_equal. Qed.

Lemma enumerate_app {A} (l1 l2 : list A) (start : Z) :
  enumerate (l1 ++ l2) start
  = enumerate l1 start ++ enumerate l2 (len l1 + start).
Proof.
  revert start. induction l1 as [|x l1 IH]; intros start; simpl.
  - done.
  - rewrite IH, len_cons. do 3 f_equal. lia.
Qed.

Lemma titles_planned key_concepts :
  (λ s : pydict, s !! "title") <$> planned_sections key_concepts
  = (λ concept, Some (PStr concept)) <$> key_concepts.
Proof.
  unfold planned_sections.
  rewrite <-(snd_enumerate key_concepts 1) at 2.
  rewrite <-!list_fmap_compose. by apply list_fmap_ext.
Qed.

Lemma planned_sections_inj key_concepts key_concepts' :
  planned_sections key_concepts = planned_sections key_concepts' →
  key_concepts = key_concepts'.
Proof.
  intros H%(f_equal (fmap (λ s : pydict, s !! "title"))).
  rewrite !titles_planned in H.
  assert (Inj (=) (=) (λ concept, Some (PStr concept))) as Hinj
    by (by intros c1 c2 [= ->]).
  by apply (list_fmap_eq_inj _ Hinj) in H.
Qed.

(** X1. The [title] fields of the planned sections are the concepts of
    [key_concepts], in the order given: the plan loses no concept, adds
    none, and the input list can be read back from it. *)
Theorem create_study_sections_titles subject key_concepts exam_date :
  ∃ sections : list pydict,
    create_study_sections subject key_concepts exam_date !! "study_sections"
      = Some (PList (PDict <$> sections)) ∧
    (λ s : pydict, s !! "title") <$> sections
      = (λ concept, Some (PStr concept)) <$> key_concepts.
Proof.
  exists (planned_sections key_concepts).
  rewrite create_study_sections_planned. split; [reflexivity|].
  apply titles_planned.
Qed.

(** X2. The plan depends on [key_concepts] alone: [subject] and [exam_date]
    are ignored (there is no scheduling by date), and two calls return the
    same plan exactly when their concept lists are the same. *)
Theorem create_study_sections_eq_iff
    subject subject' key_concepts key_concepts' exam_date exam_date' :
  create_study_sections subject key_concepts exam_date
    = create_study_sections subject' key_concepts' exam_date'
  ↔ key_concepts = key_concepts'.
Proof.
  rewrite !create_study_sections_planned. split; [|by intros ->].
  intros H%(f_equal (.!! "study_sections")).
  rewrite !lookup_insert_eq in H. injection H as H.
  apply (inj (fmap PDict)) in H. by apply planned_sections_inj.
Qed.

(** X3. Appending concepts leaves the sections already planned untouched:
    the plan of [key_concepts ++ more] starts with the plan of
    [key_concepts], followed by one section per added concept, titled by it
    and numbered on from [len(key_concepts) + 1]. *)
Theorem create_study_sections_app
    subject key_concepts (more : list string) exam_date :
  ∃ sections later : list pydict,
    create_study_sections subject key_concepts exam_date !! "study_sections"
      = Some (PList (PDict <$> sections)) ∧
    create_study_sections subject (key_concepts ++ more) exam_date
      !! "study_sections" = Some (PList (PDict <$> (sections ++ later))) ∧
    (λ s : pydict, s !! "title") <$> later
      = (λ concept, Some (PStr concept)) <$> more ∧
    (λ s : pydict, s !! "section_number") <$> later
      = (λ i, Some (PInt i)) <$> seqZ (len key_concepts + 1) (len more).
Proof.
  exists (planned_sections key_concepts),
    ((λ p, section_dict p.1 p.2) <$> enumerate more (len key_concepts + 1)).
  rewrite !create_study_sections_planned. split_and!; try reflexivity.
  - unfold planned_sections. by rewrite enumerate_app, fmap_app.
  - rewrite <-(snd_enumerate more (len key_concepts + 1)) at 2.
    rewrite <-!list_fmap_compose. by apply list_fmap_ext.
  - rewrite <-fst_enumerate, <-!list_fmap_compose. by apply list_fmap_ext.
Qed.

(** X4. [current_section] is always 1, so it names a section of the plan
    exactly when [key_concepts] is not empty: on the empty list it points at
    a section that does not exist, and [total_sections] (0) is below it. *)
Theorem create_study_sections_current subject key_concepts exam_date :
  ∃ (sections : list pydict) (total_sections : Z),
    create_study_sections subject key_concepts exam_date !! "study_sections"
      = Some (PList (PDict <$> sections)) ∧
    create_study_sections subject key_concepts exam_date !! "total_sections"
      = Some (PInt total_sections) ∧
    ((∃ s : pydict, s ∈ sections ∧
        s !! "section_number"
        = create_study_sections subject key_concepts exam_date
            !! "current_section")
     ↔ key_concepts ≠ []) ∧
    (1 ≤ total_sections ↔ key_concepts ≠ []).
Proof.
  exists (planned_sections key_concepts), (len key_concepts).
  rewrite create_study_sections_planned. split_and!; try reflexivity.
  - destruct key_concepts as [|concept later].
    + split; [|done]. intros (s & Hs & _). by apply elem_of_nil in Hs.
    + split; [done|]. intros _. exists (section_dict 1 concept).
      split; [apply list_elem_of_here|reflexivity].
  - destruct key_concepts as [|concept later].
    + by split.
    + pose proof (len_nonneg later). rewrite len_cons. split; [done|lia].
Qed.

(** X5. Every planned section is a record with the same six keys, starts
    with [status = "not_started"], has the constant [estimated_time]
    ["3-5 study sessions"] and exactly three learning objectives, built from
    its own title. *)
Theorem create_study_sections_section_shape subject key_concepts exam_date :
  ∃ sections : list pydict,
    create_study_sections subject key_concepts exam_date !! "study_sections"
      = Some (PList (PDict <$> sections)) ∧
    Forall (λ s : pydict,
        dom s = {[ "section_number"; "title"; "estimated_time";
                   "prerequisites"; "learning_objectives"; "status" ]} ∧
        s !! "status" = Some (PStr "not_started") ∧
        s !! "estimated_time" = Some (PStr "3-5 study sessions") ∧
        ∃ title : string,
          s !! "title" = Some (PStr title) ∧
          s !! "learning_objectives"
          = Some (PList [ PStr ("Master " +:+ title);
                          PStr ("Apply " +:+ title +:+ " to problems");
                          PStr ("Explain " +:+ title +:+ " clearly") ]))
      sections.
Proof.
  exists (planned_sections key_concepts).
  rewrite create_study_sections_planned. split; [reflexivity|].
  unfold planned_sections. apply Forall_fmap, Forall_true.
  intros [i concept]. simpl.
  split_and!; [|reflexivity..|by exists concept].
  unfold section_dict. rewrite !dom_insert_L, dom_singleton_L. set_solver.
Qed.

(** X14. No two sections of a plan are equal, even when [key_concepts]
    repeats a concept: their [section_number] fields are pairwise
    different, so the number identifies a section within its plan. *)
Theorem create_study_sections_NoDup subject key_concepts exam_date :
  ∃ sections : list pydict,
    create_study_sections subject key_concepts exam_date !! "study_sections"
      = Some (PList (PDict <$> sections)) ∧
    NoDup ((λ s : pydict, s !! "section_number") <$> sections) ∧
    NoDup sections.
Proof.
  exists (planned_sections key_concepts).
  rewrite create_study_sections_planned. split; [reflexivity|].
  assert (NoDup ((λ s : pydict, s !! "section_number")
                   <$> planned_sections key_concepts)) as Hnum.
  { rewrite section_numbers_planned. apply NoDup_fmap_2; [|apply NoDup_seqZ].
    by intros i j [= ->]. }
  split; [done|]. by apply NoDup_fmap_1 in Hnum.
Qed.

End PlannerStructure.

(** ** More on the understanding checker *)

Section ThresholdOrder.

Implicit Types (quiz_results : pydict) (t : float).

Ltac compare_cases :=
  repeat match goal with
  | H : context [(?a ?= ?b)%Z] |- _ => destruct (Z.compare_spec a b); subst
  | |- context [(?a ?= ?b)%Z] => destruct (Z.compare_spec a b); subst
  | H : context [Pos.compare_cont Eq ?a ?b] |- _ =>
      change (Pos.compare_cont Eq a b) with (a ?= b)%positive in *;
      destruct (Pos.compare_spec a b); subst
  | |- context [Pos.compare_cont Eq ?a ?b] =>
      change (Pos.compare_cont Eq a b) with (a ?= b)%positive in *;
      destruct (Pos.compare_spec a b); subst
  end.

Lemma SFleb_trans (x y z : spec_float) :
  SFleb x y = true → SFleb y z = true → SFleb x z = true.
Proof.
  unfold SFleb.
  destruct x as [sx|sx| |sx mx ex], y as [sy|sy| |sy my ey],
    z as [sz|sz| |sz mz ez]; simpl;
    repeat match goal with s : bool |- _ => destruct s end;
    try done; intros Hxy Hyz.
  all: compare_cases; simpl in *; first [done | lia].
Qed.

Lemma float_le_trans (x y z : float) :
  float_le x y = true → float_le y z = true → float_le x z = true.
Proof.
  unfold float_le. rewrite !FloatAxioms.leb_spec. apply SFleb_trans.
Qed.

(** The two branches of the checker, for a given or an omitted threshold. *)
Lemma check_understanding_branches quiz_results
    (passing_threshold : option float) :
  check_understanding quiz_results passing_threshold !! "understanding_sufficient"
    = Some (PBool true) ∧
  check_understanding quiz_results passing_threshold !! "weak_concepts" = None ∨
  check_understanding quiz_results passing_threshold !! "understanding_sufficient"
    = Some (PBool false) ∧
  check_understanding quiz_results passing_threshold !! "weak_concepts"
    = Some (PList [PStr "Concept A"; PStr "Concept B"]).
Proof.
  unfold check_understanding.
  destruct (float_ge _ _); [left|right]; split; reflexivity.
Qed.

(** X6. With [passing_threshold] omitted the default 0.8 is above the
    hardcoded score 0.75: whatever [quiz_results] holds, the checker answers
    [understanding_sufficient = False] and [review_and_reteach], so a
    session that never passes a threshold never proceeds to the next
    section. *)
Theorem check_understanding_default_never_passes quiz_results :
  check_understanding quiz_results None !! "understanding_sufficient"
    = Some (PBool false) ∧
  check_understanding quiz_results None !! "next_action"
    = Some (PStr "review_and_reteach") ∧
  (∀ (section_number : Z) (section_title : string)
     (difficulty_level : option string),
     check_understanding
       (quiz_section section_number section_title difficulty_level) None
       !! "next_action" = Some (PStr "review_and_reteach")).
Proof. split_and!; reflexivity. Qed.

(** X7. Lowering the threshold never turns a pass into a fail: if the
    checker finds understanding sufficient at a threshold, it does so at
    every threshold that is [<=] it. *)
Theorem check_understanding_monotone quiz_results t t' :
  float_le t' t = true →
  check_understanding quiz_results (Some t) !! "understanding_sufficient"
    = Some (PBool true) →
  check_understanding quiz_results (Some t') !! "understanding_sufficient"
    = Some (PBool true).
Proof.
  rewrite !check_understanding_sufficient. intros Hle [= Ht].
  by rewrite (float_le_trans t' t 0.75).
Qed.

(** X7 at the thresholds 0.75 and 0.5. *)
Lemma check_understanding_monotone_witness :
  float_le 0.5 0.75 = true ∧
  check_understanding ∅ (Some 0.75%float) !! "understanding_sufficient"
    = Some (PBool true) ∧
  check_understanding ∅ (Some 0.5%float) !! "understanding_sufficient"
    = Some (PBool true).
Proof.
  split_and!; [reflexivity..|].
  apply (check_understanding_monotone ∅ 0.75%float 0.5%float); reflexivity.
Defined.

(** X8. For every threshold, given, omitted or NaN, the result carries the
    [weak_concepts] key exactly when [understanding_sufficient] is false,
    and lacks it exactly when [understanding_sufficient] is true: a caller
    must test the flag before reading [weak_concepts]. *)
Theorem check_understanding_weak_concepts_iff quiz_results
    (passing_threshold : option float) :
  (is_Some (check_understanding quiz_results passing_threshold
              !! "weak_concepts")
   ↔ check_understanding quiz_results passing_threshold
       !! "understanding_sufficient" = Some (PBool false)) ∧
  (check_understanding quiz_results passing_threshold !! "weak_concepts"
     = None
   ↔ check_understanding quiz_results passing_threshold
       !! "understanding_sufficient" = Some (PBool true)).
Proof.
  destruct (check_understanding_branches quiz_results passing_threshold)
    as [[-> ->]|[-> ->]]; split; split; done.
Qed.

(** X15. Two thresholds that Python holds equal ([==], which identifies
    [0.0] and [-0.0]) give the same result, whatever the two
    [quiz_results] are: the checker cannot tell such thresholds apart. *)
Theorem check_understanding_threshold_eq
    quiz_results (quiz_results' : pydict) t t' :
  float_eq t t' = true →
  check_understanding quiz_results (Some t)
  = check_understanding quiz_results' (Some t').
Proof.
  intros Heq. unfold check_understanding. simpl.
  by rewrite (float_ge_proper _ _ _ Heq).
Qed.

(** X15 at the thresholds [0.0] and [-0.0]. *)
Lemma check_understanding_threshold_eq_witness :
  float_eq 0 neg_zero = true ∧
  check_understanding ∅ (Some 0%float)
  = check_understanding {[ "score" := PInt 5 ]} (Some neg_zero).
Proof.
  split; [reflexivity|].
  apply (check_understanding_threshold_eq
           ∅ {[ "score" := PInt 5 ]} 0%float neg_zero).
  reflexivity.
Defined.

End ThresholdOrder.

(** ** What the records keep of their arguments *)

Section Records.

Lemma Some_PDict_inj (d d' : pydict) :
  Some (PDict d) = Some (PDict d') → d = d'.
Proof. congruence. Qed.

(** [field H k as Hk], for an equation [H] between two dict literals, names
    [Hk] what [H] says at key [k]. *)
Tactic Notation "field" hyp(H) constr(k) "as" ident(Hk) :=
  pose proof (f_equal (.!! k) H) as Hk;
  repeat first
    [ rewrite lookup_insert_eq in Hk
    | rewrite lookup_singleton_eq in Hk
    | rewrite lookup_insert_ne in Hk by done ];
  try apply Some_PDict_inj in Hk.

Lemma append_assoc (s1 s2 s3 : string) :
  (s1 +:+ s2) +:+ s3 = s1 +:+ s2 +:+ s3.
Proof.
  induction s1 as [|a s1 IH]; [done|].
  change (String a ((s1 +:+ s2) +:+ s3) = String a (s1 +:+ s2 +:+ s3)).
  by rewrite IH.
Qed.

(** X9. [teach_section] keeps all three of its arguments in the record it
    returns: two calls return equal records exactly when the section number,
    the title and the grade are the same. *)
Theorem teach_section_eq_iff
    (section_number section_number' : Z)
    (section_title section_title' student_grade student_grade' : string) :
  teach_section section_number section_title student_grade
    = teach_section section_number' section_title' student_grade'
  ↔ section_number = section_number' ∧ section_title = section_title'
    ∧ student_grade = student_grade'.
Proof.
  split; [|by intros (-> & -> & ->)].
  intros H. unfold teach_section in H. field H "section_taught" as Hin.
  field Hin "number" as Hn. field Hin "title" as Ht.
  field Hin "grade_appropriate" as Hg. split_and!; congruence.
Qed.

(** X10. [quiz_section] keeps its section number and title, and its
    difficulty up to the default: two calls return equal records exactly
    when number and title are the same and the difficulties are the same
    once ["medium"] stands for an omitted one. In particular omitting the
    difficulty and passing ["medium"] cannot be told apart. *)
Theorem quiz_section_eq_iff
    (section_number section_number' : Z)
    (section_title section_title' : string)
    (difficulty_level difficulty_level' : option string) :
  quiz_section section_number section_title difficulty_level
    = quiz_section section_number' section_title' difficulty_level'
  ↔ section_number = section_number' ∧ section_title = section_title'
    ∧ default "medium" difficulty_level
      = default "medium" difficulty_level'.
Proof.
  split.
  - intros H. unfold quiz_section in H. field H "quiz_administered" as Hin.
    field Hin "section" as Hn. field Hin "title" as Ht.
    field Hin "difficulty" as Hd. split_and!; congruence.
  - intros (-> & -> & Hd). unfold quiz_section. simpl. by rewrite Hd.
Qed.

(** X11. [get_student_info] keeps all four of its arguments: two calls
    return equal profiles exactly when the four arguments are the same. *)
Theorem get_student_info_eq_iff
    (grade_level grade_level' subject subject' exam_date exam_date'
       current_knowledge current_knowledge' : string) :
  get_student_info grade_level subject exam_date current_knowledge
    = get_student_info grade_level' subject' exam_date' current_knowledge'
  ↔ grade_level = grade_level' ∧ subject = subject'
    ∧ exam_date = exam_date' ∧ current_knowledge = current_knowledge'.
Proof.
  split; [|by intros (-> & -> & -> & ->)].
  intros H. unfold get_student_info in H. field H "student_profile" as Hin.
  field Hin "grade_level" as Hg. field Hin "subject" as Hs.
  field Hin "exam_date" as He. field Hin "current_knowledge" as Hk.
  split_and!; congruence.
Qed.

(** X12. [research_subject] keeps its arguments only inside the sentence of
    [subject_overview], where they are not kept apart: a subject that ends
    in [" at " ++ b] at grade [c] and the subject without that ending at
    grade [b ++ " at " ++ c] give the same research record. *)
Theorem research_subject_ambiguous (a b c : string) :
  research_subject (a +:+ " at " +:+ b) c
  = research_subject a (b +:+ " at " +:+ c).
Proof.
  unfold research_subject. by rewrite !append_assoc.
Qed.

End Records.

(** ** The workflow the hints describe *)

Section Workflow.

(** X13. The [next_step] hint of each of the first five tools is the name
    of the tool registered right after it in [root_agent]'s tool list, so
    every hint names a registered tool and the hints walk the list in
    order. The chain ends at [check_understanding]: its result has no
    [next_step] key, and its [next_action] is never the name of a
    registered tool. *)
Theorem next_step_follows_registration :
  (∀ grade_level subject exam_date current_knowledge : string,
     get_student_info grade_level subject exam_date current_knowledge
       !! "next_step" = PStr <$> root_agent_tools !! 1%nat) ∧
  (∀ subject grade_level : string,
     research_subject subject grade_level !! "next_step"
       = PStr <$> root_agent_tools !! 2%nat) ∧
  (∀ (subject : string) (key_concepts : list string) (exam_date : string),
     create_study_sections subject key_concepts exam_date !! "next_step"
       = PStr <$> root_agent_tools !! 3%nat) ∧
  (∀ (section_number : Z) (section_title student_grade : string),
     teach_section section_number section_title student_grade !! "next_step"
       = PStr <$> root_agent_tools !! 4%nat) ∧
  (∀ (section_number : Z) (section_title : string)
     (difficulty_level : option string),
     quiz_section section_number section_title difficulty_level
       !! "next_step" = PStr <$> root_agent_tools !! 5%nat) ∧
  (∀ (quiz_results : pydict) (passing_threshold : option float),
     check_understanding quiz_results passing_threshold !! "next_step"
       = None ∧
     ∃ next_action : string,
       check_understanding quiz_results passing_threshold !! "next_action"
         = Some (PStr next_action) ∧
       next_action ∉ root_agent_tools).
Proof.
  split_and!; try (intros; reflexivity).
  intros quiz_results passing_threshold. unfold check_understanding.
  destruct (float_ge _ _); (split; [reflexivity|]);
    eexists; (split; [reflexivity|]);
    unfold root_agent_tools; rewrite !elem_of_cons, elem_of_nil;
    intros H; repeat (destruct H as [H|H]; [discriminate H|]); done.
Qed.

End Workflow.
